(** * SLAPxInterView backend: chat-token endpoint, Stream user sync, server start-up

    A shallow embedding of
      - backend/src/config/stream.js
      - backend/src/controllers/chat.controller.js
      - backend/src/server.js, and its revision with Sentry
    The JavaScript code is a thin layer over third-party services (the
    Stream chat client, Express, Clerk, the database driver).  Those
    services are not part of the repository: they are a parameter of the
    development ([Externals]), which says, for every call and every
    history of earlier calls, whether the call returns or throws.  The
    code of the repository is written in a small state-and-exception
    monad over the [World] the program runs in. *)

From Stdlib Require Import String ZArith List Bool Lia.
From ExtLib Require Import Structures.Monad Structures.MonadExc.
Import ListNotations.
Import MonadNotation.
Local Open Scope string_scope.
Local Open Scope Z_scope.
Local Open Scope monad_scope.
Local Open Scope list_scope.

(** ** JavaScript values *)

(** A thrown JavaScript error: its [name] ("TypeError", "Error", ...) and
    its [message]. *)
Record JsError : Type := mkError { err_name : string; err_message : string }.

(** The result of a JavaScript call that either returns or throws. *)
Inductive Result (A : Type) : Type :=
| Returns (a : A)
| Throws (e : JsError).
Arguments Returns {A} a.
Arguments Throws {A} e.

(** The values the code handles.  An object carries what its [toString]
    method does and its own properties. *)
#[warnings="-register-all"] Inductive JsValue : Type :=
| VUndefined
| VNull
| VBool (b : bool)
| VStr (s : string)
| VObj (toStr : Result string) (props : list (string * JsValue)).

(** An object literal [{ k1: v1, ... }]: [Object.prototype.toString]. *)
Definition js_object (props : list (string * JsValue)) : JsValue :=
  VObj (Returns "[object Object]") props.

Definition TypeError (msg : string) : JsError := mkError "TypeError" msg.

Fixpoint lookup_prop (k : string) (props : list (string * JsValue)) : JsValue :=
  match props with
  | [] => VUndefined
  | (k', v) :: rest => if String.eqb k k' then v else lookup_prop k rest
  end.

(** [v.k]: reading a property of [undefined] or [null] throws a TypeError;
    a property that is absent reads as [undefined]. *)
Definition get_prop (v : JsValue) (k : string) : Result JsValue :=
  match v with
  | VUndefined =>
      Throws (TypeError ("Cannot read properties of undefined (reading '" ++ k ++ "')")%string)
  | VNull =>
      Throws (TypeError ("Cannot read properties of null (reading '" ++ k ++ "')")%string)
  | VBool _ => Returns VUndefined
  | VStr _ => Returns VUndefined
  | VObj _ props => Returns (lookup_prop k props)
  end.

(** [v.toString()]. *)
Definition toString (v : JsValue) : Result string :=
  match v with
  | VUndefined =>
      Throws (TypeError "Cannot read properties of undefined (reading 'toString')")
  | VNull =>
      Throws (TypeError "Cannot read properties of null (reading 'toString')")
  | VBool b => Returns (if b then "true" else "false")
  | VStr s => Returns s
  | VObj t _ => t
  end.

(** ** The world the program runs in *)

(** A channel of the chat provider, named by its channel id. *)
Inductive Channel : Type := Chan (cid : string).

(** What a response carries: [res.json(obj)] or [res.send(text)]. *)
Inductive Body : Type :=
| JsonBody (obj : JsValue)
| TextBody (text : string).

(** An environment variable: a string, or [None] for [undefined]. *)
Definition EnvVar : Type := option string.

(** The request methods considered. *)
Inductive Method : Type := GET | HEAD | POST | PUT | DELETE.

(** The third-party code on the request path: the middlewares server.js
    mounts, Sentry's error handler, and the handler Express itself runs
    when the layers are used up (with the error, if one was thrown). *)
Inductive Middleware : Type :=
| express_json
| clerkMiddleware
| inngest_serve
| sentry_error_handler (error : JsError)
| express_final_handler (error : option JsError).

(** The calls the program makes to services it does not own, oldest first
    in a [World]'s history. *)
Inductive Event : Type :=
| EvUpsertUser (userData : JsValue)
| EvDeleteUser (userId : JsValue)
| EvCreateToken (userId : string)
| EvQueryChannels (filter : JsValue)
| EvAddMembers (channel : Channel) (members : list JsValue)
| EvSend (status : Z) (body : Body)
| EvMiddleware (m : Middleware) (meth : Method) (path : string)
| EvConnectDB
| EvListen (port : EnvVar).

Inductive Level : Type := LevelLog | LevelError.

Inductive LogArg : Type :=
| LStr (s : string)
| LVal (v : JsValue)
| LErr (e : JsError).

(** One call of [console.log] or [console.error]. *)
Definition LogLine : Type := (Level * list LogArg)%type.

(** Express's [res]: the status code set so far (200 until changed) and
    the responses written, each with the status it went out with. *)
Record Response : Type := mkResponse {
  statusCode : Z;
  sent : list (Z * Body)
}.

Definition fresh_response : Response := mkResponse 200 [].

(** The state the process itself owns. *)
Record Process : Type := mkProcess {
  db_connected : bool;
  listening : option EnvVar
}.

Record World : Type := mkWorld {
  history : list Event;
  console : list LogLine;
  res : Response;
  proc : Process
}.

(** How a function of the program ends: it returns, it throws (an async
    function's promise rejects), or the process exits. *)
Inductive Outcome (A : Type) : Type :=
| Returned (a : A)
| Threw (e : JsError)
| Exited (code : Z).
Arguments Returned {A} a.
Arguments Threw {A} e.
Arguments Exited {A} code.

(** What a middleware does with a request: it hands it on, or it answers
    it itself with a status and a body of its own. *)
Inductive MwAction : Type :=
| CallsNext
| EndsResponse (status : Z) (body : Body).

(** An incoming request; [auth] is what calling [req.auth()] does. *)
Record Request : Type := mkRequest {
  method : Method;
  path : string;
  auth : Result JsValue
}.

(** The services outside the repository.  Each answer may depend on the
    arguments of the call and on every call made before it. *)
Record Externals : Type := mkExternals {
  upsertUser : JsValue -> list Event -> Result unit;
  deleteUser : JsValue -> list Event -> Result unit;
  createToken : string -> list Event -> Result string;
  queryChannels : JsValue -> list Event -> Result (list Channel);
  addMembers : Channel -> list JsValue -> list Event -> Result unit;
  res_write : Z -> Body -> list Event -> Result unit;
  run_middleware : Middleware -> Method -> string -> list Event -> Result MwAction;
  db_connect : list Event -> Outcome unit;
  app_listen : EnvVar -> list Event -> Result unit
}.

(** The configuration object exported by config/env.js. *)
Record EnvConfig : Type := mkEnv {
  NODE_ENV : EnvVar;
  PORT : EnvVar
}.

(** ** The monad of the program *)

Definition M (A : Type) : Type := World -> Outcome A * World.

Definition M_ret {A : Type} (a : A) : M A := fun w => (Returned a, w).

Definition M_bind {A B : Type} (m : M A) (k : A -> M B) : M B :=
  fun w =>
    match m w with
    | (Returned a, w') => k a w'
    | (Threw e, w') => (Threw e, w')
    | (Exited c, w') => (Exited c, w')
    end.

(** [throw e]. *)
Definition M_raise {A : Type} (e : JsError) : M A := fun w => (Threw e, w).

(** [try { m } catch (error) { h error }].  A process exit is not caught. *)
Definition M_catch {A : Type} (m : M A) (h : JsError -> M A) : M A :=
  fun w =>
    match m w with
    | (Threw e, w') => h e w'
    | r => r
    end.

#[export] Instance Monad_M : Monad M :=
  {| ret := @M_ret; bind := @M_bind |}.

#[export] Instance Exc_M : MonadExc JsError M :=
  {| raise := @M_raise; catch := @M_catch |}.

(** A pure call that returns or throws. *)
Definition lift {A : Type} (r : Result A) : M A :=
  match r with
  | Returns a => ret a
  | Throws e => raise e
  end.

(** A call to an outside service: it is recorded in the history, and the
    service answers from the history before the call. *)
Definition record (ev : Event) (w : World) : World :=
  mkWorld (history w ++ [ev]) (console w) (res w) (proc w).

Definition call {A : Type} (ev : Event) (answer : list Event -> Result A) : M A :=
  fun w => lift (answer (history w)) (record ev w).

(** The world after a [console.log] or [console.error]. *)
Definition logged (lvl : Level) (args : list LogArg) (w : World) : World :=
  mkWorld (history w) (console w ++ [(lvl, args)]) (res w) (proc w).

Definition console_out (lvl : Level) (args : list LogArg) : M unit :=
  fun w => (Returned tt, logged lvl args w).

Definition console_log : list LogArg -> M unit := console_out LevelLog.
Definition console_error : list LogArg -> M unit := console_out LevelError.

(** [process.exit(code)]: nothing after it runs. *)
Definition process_exit {A : Type} (code : Z) : M A := fun w => (Exited code, w).

Definition set_res (r : Response) (w : World) : World :=
  mkWorld (history w) (console w) r (proc w).

Definition set_proc (p : Process) (w : World) : World :=
  mkWorld (history w) (console w) (res w) p.

(** [res.status(code)]. *)
Definition res_status (code : Z) : M unit :=
  fun w => (Returned tt, set_res (mkResponse code (sent (res w))) w).

Section Program.

Variable ext : Externals.
Variable ENV : EnvConfig.

(** Writing the response out with the status code set so far. *)
Definition res_end (body : Body) : M unit :=
  fun w =>
    let code := statusCode (res w) in
    match res_write ext code body (history w) with
    | Returns _ =>
        (Returned tt,
         set_res (mkResponse code (sent (res w) ++ [(code, body)]))
                 (record (EvSend code body) w))
    | Throws e => (Threw e, record (EvSend code body) w)
    end.

(** [res.json(obj)] and [res.send(text)]. *)
Definition res_json (obj : JsValue) : M unit := res_end (JsonBody obj).

(** ** backend/src/config/stream.js *)

Definition upsertStreamUser (userData : JsValue) : M JsValue :=
  catch
    (call (EvUpsertUser userData) (upsertUser ext userData) ;;
     name <- lift (get_prop userData "name") ;;
     console_log [LStr "Stream user upserted:"; LVal name] ;;
     ret userData)
    (fun error =>
       console_error [LStr "Error upserting Stream user:"; LErr error] ;;
       ret VUndefined).

Definition deleteStreamUser (userId : JsValue) : M JsValue :=
  catch
    (call (EvDeleteUser userId) (deleteUser ext userId) ;;
     console_log [LStr "Stream user deleted:"; LVal userId] ;;
     ret VUndefined)
    (fun error =>
       console_error [LStr "Error deleting Stream user:"; LErr error] ;;
       ret VUndefined).

Definition genrateStreamToken (userId : JsValue) : M JsValue :=
  catch
    (userIdString <- lift (toString userId) ;;
     token <- call (EvCreateToken userIdString) (createToken ext userIdString) ;;
     ret (VStr token))
    (fun error =>
       console_error [LStr "Error generating Stream token:"; LErr error] ;;
       ret VNull).

(** The filter [{ discoverable: true }]. *)
Definition discoverable_filter : JsValue := js_object [("discoverable", VBool true)].

(** [for (const channel of channels) { await body(channel) }]. *)
Fixpoint for_of (channels : list Channel) (body : Channel -> M unit) : M unit :=
  match channels with
  | [] => ret tt
  | channel :: rest => body channel ;; for_of rest body
  end.

Definition addUserToPublicChannels (newUserId : JsValue) : M unit :=
  publicChannels <-
    call (EvQueryChannels discoverable_filter) (queryChannels ext discoverable_filter) ;;
  for_of publicChannels
    (fun channel => call (EvAddMembers channel [newUserId])
                         (addMembers ext channel [newUserId])).

(** ** backend/src/controllers/chat.controller.js *)

Definition token_body (token : JsValue) : JsValue := js_object [("token", token)].

Definition error_body : JsValue :=
  js_object [("message", VStr "Error generating stream token")].

Definition getStreamToken (req : Request) : M unit :=
  catch
    (authObject <- lift (auth req) ;;
     userId <- lift (get_prop authObject "userId") ;;
     token <- genrateStreamToken userId ;;
     res_status 200 ;;
     res_json (token_body token))
    (fun error =>
       res_status 500 ;;
       res_json error_body).

(** ** backend/src/server.js *)
















(** [ENV.NODE_ENV !== "production"]. *)
Definition not_production : bool :=
  match NODE_ENV ENV with
  | Some s => negb (String.eqb s "production")
  | None => true
  end.

(** A template literal prints [undefined] for a variable that is not set. *)
Definition show_var (v : EnvVar) : string :=
  match v with
  | Some s => s
  | None => "undefined"
  end.

(** [await connectDB()]; config/db.js is taken as given ([db_connect]). *)
Definition connectDB : M unit :=
  fun w =>
    let w' := record EvConnectDB w in
    match db_connect ext (history w) with
    | Returned _ => (Returned tt, set_proc (mkProcess true (listening (proc w))) w')
    | Threw e => (Threw e, w')
    | Exited c => (Exited c, w')
    end.

(** [app.listen(port, callback)]: the call asks for the port and returns
    at once; Express keeps the callback for later ([listen_settled]). *)
Definition listen (port : EnvVar) (callback : M unit) : M unit :=
  call (EvListen port) (app_listen ext port).


(** The callback server.js gives to [app.listen]. *)
Definition listen_callback : M unit :=
  console_log
    [LStr ("Server is running on port http://localhost:" ++ show_var (PORT ENV))%string].

Definition startServer : M unit :=
  catch
    (if not_production then
       connectDB ;;
       listen (PORT ENV) listen_callback
     else ret tt)
    (fun error =>
       console_error [LStr "Error starting server:"; LErr error] ;;
       process_exit 1).

End Program.

(** ** Sample services and requests *)

Definition network_error : JsError := mkError "Error" "connect ECONNREFUSED".
Definition quota_error : JsError := mkError "Error" "Too many requests".

(** Every service answers; the provider mints "tok_abc" and lists two
    discoverable channels. *)
Definition happy : Externals :=
  {| upsertUser := fun _ _ => Returns tt;
     deleteUser := fun _ _ => Returns tt;
     createToken := fun _ _ => Returns "tok_abc";
     queryChannels := fun _ _ => Returns [Chan "general"; Chan "random"];
     addMembers := fun _ _ _ => Returns tt;
     res_write := fun _ _ _ => Returns tt;
     run_middleware := fun _ _ _ _ => Returns CallsNext;
     db_connect := fun _ => Returned tt;
     app_listen := fun _ _ => Returns tt |}.

(** The chat provider is unreachable; everything else answers. *)
Definition provider_down : Externals :=
  {| upsertUser := fun _ _ => Throws network_error;
     deleteUser := fun _ _ => Throws network_error;
     createToken := fun _ _ => Throws network_error;
     queryChannels := fun _ _ => Throws network_error;
     addMembers := fun _ _ _ => Throws network_error;
     res_write := fun _ _ _ => Returns tt;
     run_middleware := fun _ _ _ _ => Returns CallsNext;
     db_connect := fun _ => Returned tt;
     app_listen := fun _ _ => Returns tt |}.

(** The provider lists three channels and runs out of quota after the
    first add-member call. *)
Definition quota_after_one : Externals :=
  {| upsertUser := fun _ _ => Returns tt;
     deleteUser := fun _ _ => Returns tt;
     createToken := fun _ _ => Returns "tok_abc";
     queryChannels := fun _ _ => Returns [Chan "general"; Chan "random"; Chan "help"];
     addMembers := fun _ _ h =>
       if (length h <=? 1)%nat then Returns tt else Throws quota_error;
     res_write := fun _ _ _ => Returns tt;
     run_middleware := fun _ _ _ _ => Returns CallsNext;
     db_connect := fun _ => Returned tt;
     app_listen := fun _ _ => Returns tt |}.

(** Express cannot write the 200 answer (say, the connection is gone);
    a later write goes through. *)
Definition write_fails_once : Externals :=
  {| upsertUser := fun _ _ => Returns tt;
     deleteUser := fun _ _ => Returns tt;
     createToken := fun _ _ => Returns "tok_abc";
     queryChannels := fun _ _ => Returns [Chan "general"; Chan "random"];
     addMembers := fun _ _ _ => Returns tt;
     res_write := fun code _ _ =>
       if (code =? 200)%Z then Throws network_error else Returns tt;
     run_middleware := fun _ _ _ _ => Returns CallsNext;
     db_connect := fun _ => Returned tt;
     app_listen := fun _ _ => Returns tt |}.

Definition production : EnvConfig := mkEnv (Some "production") (Some "3000").
Definition development : EnvConfig := mkEnv (Some "development") (Some "3000").

Definition user_123 : JsValue := VStr "user_123".

(** A signed-in request: [req.auth()] returns an object with the user id. *)
Definition signed_in (m : Method) (p : string) : Request :=
  mkRequest m p (Returns (js_object [("userId", user_123)])).

(** A request that did not pass through Clerk: [req.auth] is not there. *)
Definition without_clerk (m : Method) (p : string) : Request :=
  mkRequest m p (Throws (TypeError "req.auth is not a function")).

(** A signed-out request: Clerk's auth object carries [userId: null]. *)
Definition signed_out (m : Method) (p : string) : Request :=
  mkRequest m p (Returns (js_object [("userId", VNull)])).

(** The headers of the response are already out: every write of an
    answer throws. *)
Definition headers_already_sent : Externals :=
  {| upsertUser := fun _ _ => Returns tt;
     deleteUser := fun _ _ => Returns tt;
     createToken := fun _ _ => Returns "tok_abc";
     queryChannels := fun _ _ => Returns [Chan "general"; Chan "random"];
     addMembers := fun _ _ _ => Returns tt;
     res_write := fun _ _ _ =>
       Throws (mkError "Error"
                 "Cannot set headers after they are sent to the client");
     run_middleware := fun _ _ _ _ => Returns CallsNext;
     db_connect := fun _ => Returned tt;
     app_listen := fun _ _ => Returns tt |}.


(** The database cannot be reached; everything else answers. *)
Definition db_down : Externals :=
  {| upsertUser := fun _ _ => Returns tt;
     deleteUser := fun _ _ => Returns tt;
     createToken := fun _ _ => Returns "tok_abc";
     queryChannels := fun _ _ => Returns [Chan "general"; Chan "random"];
     addMembers := fun _ _ _ => Returns tt;
     res_write := fun _ _ _ => Returns tt;
     run_middleware := fun _ _ _ _ => Returns CallsNext;
     db_connect := fun _ => Threw network_error;
     app_listen := fun _ _ => Returns tt |}.

(** A world in which nothing has happened yet. *)
Definition initial : World := mkWorld [] [] fresh_response (mkProcess false None).

(** ** Worlds and call sequences the statements speak about *)

(** The world after [res.status(code).json(obj)] went through. *)
Definition answered (code : Z) (obj : JsValue) (w : World) : World :=
  mkWorld (history w ++ [EvSend code (JsonBody obj)]) (console w)
          (mkResponse code (sent (res w) ++ [(code, JsonBody obj)])) (proc w).

(** The world after [res.status(code).json(obj)] threw. *)
Definition unanswered (code : Z) (obj : JsValue) (w : World) : World :=
  mkWorld (history w ++ [EvSend code (JsonBody obj)]) (console w)
          (mkResponse code (sent (res w))) (proc w).

(** The line [genrateStreamToken] prints for a caught error. *)
Definition token_error_line (e : JsError) : LogLine :=
  (LevelError, [LStr "Error generating Stream token:"; LErr e]).

(** The add-member calls for [channels], one per channel, in order. *)
Definition add_calls (newUserId : JsValue) (channels : list Channel) : list Event :=
  map (fun channel => EvAddMembers channel [newUserId]) channels.

(** From history [h] on, the add-member calls for the first [n] of
    [channels] return, each one asked after the calls before it. *)
Definition adds_return (ext : Externals) (newUserId : JsValue) (h : list Event)
    (channels : list Channel) (n : nat) : Prop :=
  forall j channel,
    (j < n)%nat ->
    nth_error channels j = Some channel ->
    addMembers ext channel [newUserId]
      (h ++ add_calls newUserId (firstn j channels)) = Returns tt.

(** ** Running the functions of stream.js *)

Section StreamFacts.

Variable ext : Externals.

Lemma upsertStreamUser_run userData w :
  upsertStreamUser ext userData w =
  let w1 := record (EvUpsertUser userData) w in
  match upsertUser ext userData (history w), get_prop userData "name" with
  | Returns _, Returns name =>
      (Returned userData,
       logged LevelLog [LStr "Stream user upserted:"; LVal name] w1)
  | Returns _, Throws e =>
      (Returned VUndefined,
       logged LevelError [LStr "Error upserting Stream user:"; LErr e] w1)
  | Throws e, _ =>
      (Returned VUndefined,
       logged LevelError [LStr "Error upserting Stream user:"; LErr e] w1)
  end.
Proof.
  unfold upsertStreamUser, call; cbn.
  unfold M_catch, M_bind.
  destruct (upsertUser ext userData (history w)); cbn;
    [destruct (get_prop userData "name"); cbn|]; reflexivity.
Qed.

Lemma deleteStreamUser_run userId w :
  deleteStreamUser ext userId w =
  let w1 := record (EvDeleteUser userId) w in
  match deleteUser ext userId (history w) with
  | Returns _ =>
      (Returned VUndefined,
       logged LevelLog [LStr "Stream user deleted:"; LVal userId] w1)
  | Throws e =>
      (Returned VUndefined,
       logged LevelError [LStr "Error deleting Stream user:"; LErr e] w1)
  end.
Proof.
  unfold deleteStreamUser, call; cbn.
  unfold M_catch, M_bind.
  destruct (deleteUser ext userId (history w)); reflexivity.
Qed.

Lemma genrateStreamToken_run userId w :
  genrateStreamToken ext userId w =
  match toString userId with
  | Returns s =>
      let w1 := record (EvCreateToken s) w in
      match createToken ext s (history w) with
      | Returns token => (Returned (VStr token), w1)
      | Throws e =>
          (Returned VNull,
           logged LevelError [LStr "Error generating Stream token:"; LErr e] w1)
      end
  | Throws e =>
      (Returned VNull,
       logged LevelError [LStr "Error generating Stream token:"; LErr e] w)
  end.
Proof.
  unfold genrateStreamToken, call; cbn.
  unfold M_catch, M_bind.
  destruct (toString userId) as [s|e]; cbn; [|reflexivity].
  destruct (createToken ext s (history w)); reflexivity.
Qed.

Lemma call_run {A : Type} (ev : Event) (answer : list Event -> Result A) w :
  call ev answer w =
  match answer (history w) with
  | Returns a => (Returned a, record ev w)
  | Throws e => (Threw e, record ev w)
  end.
Proof. unfold call. destruct (answer (history w)); reflexivity. Qed.

Lemma for_of_cons channel rest (body : Channel -> M unit) w :
  for_of (channel :: rest) body w =
  match body channel w with
  | (Returned _, w') => for_of rest body w'
  | (Threw e, w') => (Threw e, w')
  | (Exited c, w') => (Exited c, w')
  end.
Proof. reflexivity. Qed.

(** The enrollment loop, started in any world: it walks a prefix of the
    channels, one add-member call each, every call made after the one
    before it has returned, and stops early only at a call that throws. *)
Lemma enroll_loop newUserId channels : forall w,
  let r := for_of channels
             (fun channel => call (EvAddMembers channel [newUserId])
                                  (addMembers ext channel [newUserId])) w in
  exists k : nat,
    (k <= length channels)%nat /\
    snd r = mkWorld (history w ++ add_calls newUserId (firstn k channels))
                    (console w) (res w) (proc w) /\
    ((fst r = Returned tt /\ k = length channels /\
      adds_return ext newUserId (history w) channels k) \/
     (exists e channel,
        fst r = Threw e /\
        nth_error channels (pred k) = Some channel /\
        (0 < k)%nat /\
        adds_return ext newUserId (history w) channels (pred k) /\
        addMembers ext channel [newUserId]
          (history w ++ add_calls newUserId (firstn (pred k) channels)) = Throws e)).
Proof.
  induction channels as [|c cs IH]; intros w.
  - exists 0%nat. cbn. rewrite app_nil_r. destruct w; cbn.
    split; [lia|]. split; [reflexivity|]. left.
    repeat split. intros j ch Hj. lia.
  - specialize (IH (record (EvAddMembers c [newUserId]) w)).
    cbn zeta in IH |- *. rewrite for_of_cons, call_run.
    destruct (addMembers ext c [newUserId] (history w)) as [[]|e] eqn:Hc.
    + destruct IH as (k & Hk & Hw & Hr).
      assert (Hstep : forall n,
                adds_return ext newUserId
                  (history (record (EvAddMembers c [newUserId]) w)) cs n ->
                adds_return ext newUserId (history w) (c :: cs) (S n)).
      { intros n Hn j ch Hj Hnth. destruct j as [|j']; cbn in Hnth |- *.
        - injection Hnth as <-. rewrite app_nil_r. exact Hc.
        - specialize (Hn j' ch ltac:(lia) Hnth). cbn in Hn.
          rewrite <- app_assoc in Hn. exact Hn. }
      exists (S k). split; [cbn; lia|].
      split.
      * rewrite Hw. cbn. rewrite <- app_assoc. reflexivity.
      * destruct Hr as [(Hr & -> & Hall)|(e & ch & Hr & Hn & Hpos & Hall & Ht)].
        -- left. repeat split; [exact Hr | apply Hstep, Hall].
        -- right. exists e, ch. split; [exact Hr|].
           destruct k as [|k']; [lia|]. cbn [pred] in Hn, Ht, Hall |- *.
           split; [exact Hn|]. split; [lia|]. split; [apply Hstep, Hall|].
           cbn in Ht |- *. rewrite <- app_assoc in Ht. exact Ht.
    + exists 1%nat. split; [cbn; lia|]. split; [reflexivity|].
      right. exists e, c. cbn. rewrite app_nil_r.
      repeat split; [lia | intros j ch Hj; lia | exact Hc].
Qed.

Lemma addUserToPublicChannels_run newUserId w :
  addUserToPublicChannels ext newUserId w =
  let w1 := record (EvQueryChannels discoverable_filter) w in
  match queryChannels ext discoverable_filter (history w) with
  | Returns channels =>
      for_of channels
        (fun channel => call (EvAddMembers channel [newUserId])
                             (addMembers ext channel [newUserId])) w1
  | Throws e => (Threw e, w1)
  end.
Proof.
  unfold addUserToPublicChannels, call; cbn.
  unfold M_bind.
  destruct (queryChannels ext discoverable_filter (history w)); reflexivity.
Qed.

(** Enrollment after the channel query returned [channels]. *)
Lemma enrollment_loop_outcome newUserId channels w :
  queryChannels ext discoverable_filter (history w) = Returns channels ->
  let r := addUserToPublicChannels ext newUserId w in
  let h1 := history w ++ [EvQueryChannels discoverable_filter] in
  exists k : nat,
    (k <= length channels)%nat /\
    snd r = mkWorld (h1 ++ add_calls newUserId (firstn k channels))
                    (console w) (res w) (proc w) /\
    ((fst r = Returned tt /\ k = length channels /\
      adds_return ext newUserId h1 channels k) \/
     (exists e channel,
        fst r = Threw e /\
        nth_error channels (pred k) = Some channel /\
        (0 < k)%nat /\
        adds_return ext newUserId h1 channels (pred k) /\
        addMembers ext channel [newUserId]
          (h1 ++ add_calls newUserId (firstn (pred k) channels)) = Throws e)).
Proof.
  intros Hq r h1.
  assert (Hloop := enroll_loop newUserId channels
                     (record (EvQueryChannels discoverable_filter) w)).
  cbn zeta in Hloop.
  assert (Hr : r = for_of channels
                     (fun channel => call (EvAddMembers channel [newUserId])
                                          (addMembers ext channel [newUserId]))
                     (record (EvQueryChannels discoverable_filter) w)).
  { subst r. rewrite addUserToPublicChannels_run. cbn zeta. rewrite Hq.
    reflexivity. }
  rewrite <- Hr in Hloop. cbn [record history console res proc] in Hloop.
  exact Hloop.
Qed.

(** [res.status(code).json(obj)]. *)
Lemma respond_run code obj w :
  (res_status code ;; res_json ext obj) w =
  match res_write ext code (JsonBody obj) (history w) with
  | Returns _ => (Returned tt, answered code obj w)
  | Throws e => (Threw e, unanswered code obj w)
  end.
Proof.
  cbn. unfold M_bind, res_status, res_json, res_end; cbn.
  destruct (res_write ext code (JsonBody obj) (history w)); reflexivity.
Qed.

End StreamFacts.

(** ** Running the token endpoint *)

Section ControllerFacts.

Variable ext : Externals.

(** The handler, one level unfolded: the [catch] branch answers 500. *)
Lemma getStreamToken_unfold req w :
  getStreamToken ext req w =
  let fail := (res_status 500 ;; res_json ext error_body) : M unit in
  match auth req with
  | Throws _ => fail w
  | Returns a =>
      match get_prop a "userId" with
      | Throws _ => fail w
      | Returns userId =>
          match genrateStreamToken ext userId w with
          | (Returned token, w1) =>
              match (res_status 200 ;; res_json ext (token_body token)) w1 with
              | (Threw _, w2) => fail w2
              | r => r
              end
          | (Threw _, w1) => fail w1
          | (Exited c, w1) => (Exited c, w1)
          end
      end
  end.
Proof.
  unfold getStreamToken; cbn -[genrateStreamToken res_status res_json].
  unfold M_catch, M_bind.
  destruct (auth req) as [a|e]; cbn -[genrateStreamToken res_status res_json];
    [|reflexivity].
  destruct (get_prop a "userId") as [u|e];
    cbn -[genrateStreamToken res_status res_json]; [|reflexivity].
  destruct (genrateStreamToken ext u w) as [[token|e|c] w1]; reflexivity.
Qed.

(** [genrateStreamToken] always hands a value back. *)
Lemma genrateStreamToken_returns userId w :
  exists token, fst (genrateStreamToken ext userId w) = Returned token.
Proof.
  rewrite genrateStreamToken_run.
  destruct (toString userId) as [s|e]; cbn; [|eauto].
  destruct (createToken ext s (history w)); cbn; eauto.
Qed.

(** The handler with the identity in hand and the token settled. *)
Lemma getStreamToken_with_token req w a userId token w1 :
  auth req = Returns a ->
  get_prop a "userId" = Returns userId ->
  genrateStreamToken ext userId w = (Returned token, w1) ->
  getStreamToken ext req w =
  match res_write ext 200 (JsonBody (token_body token)) (history w1) with
  | Returns _ => (Returned tt, answered 200 (token_body token) w1)
  | Throws _ =>
      (res_status 500 ;; res_json ext error_body)
        (unanswered 200 (token_body token) w1)
  end.
Proof.
  intros Ha Hu Hg. rewrite getStreamToken_unfold. cbn zeta.
  rewrite Ha, Hu, Hg, respond_run.
  destruct (res_write ext 200 (JsonBody (token_body token)) (history w1));
    reflexivity.
Qed.

(** The handler when the identity cannot be read. *)
Lemma getStreamToken_no_identity req w :
  (exists e, auth req = Throws e) \/
  (exists a e, auth req = Returns a /\ get_prop a "userId" = Throws e) ->
  getStreamToken ext req w = (res_status 500 ;; res_json ext error_body) w.
Proof.
  intros [[e He]|(a & e & Ha & He)]; rewrite getStreamToken_unfold; cbn zeta.
  - rewrite He. reflexivity.
  - rewrite Ha, He. reflexivity.
Qed.

(** What [genrateStreamToken] leaves behind: the process state as it was,
    and on the console at most the line for the error it caught. *)
Lemma genrateStreamToken_effects userId w token w1 :
  genrateStreamToken ext userId w = (Returned token, w1) ->
  proc w1 = proc w /\
  (console w1 = console w \/ exists e, console w1 = console w ++ [token_error_line e]).
Proof.
  rewrite genrateStreamToken_run.
  destruct (toString userId) as [s|e]; cbn zeta;
    [destruct (createToken ext s (history w)) as [t|e]|];
    intros Hg; injection Hg as _ <-; cbn; split; auto;
    right; exists e; reflexivity.
Qed.

(** The handler never touches the process state, whatever happens. *)
Lemma respond_proc code obj w :
  proc (snd ((res_status code ;; res_json ext obj) w)) = proc w.
Proof.
  rewrite respond_run.
  destruct (res_write ext code (JsonBody obj) (history w)); reflexivity.
Qed.

Lemma respond_console code obj w :
  console (snd ((res_status code ;; res_json ext obj) w)) = console w.
Proof.
  rewrite respond_run.
  destruct (res_write ext code (JsonBody obj) (history w)); reflexivity.
Qed.

Lemma respond_history code obj w :
  history (snd ((res_status code ;; res_json ext obj) w)) =
  history w ++ [EvSend code (JsonBody obj)].
Proof.
  rewrite respond_run.
  destruct (res_write ext code (JsonBody obj) (history w)); reflexivity.
Qed.

End ControllerFacts.

(** ** The token endpoint *)

(** C3, at a concrete input.  The provider returns the token "tok_abc"
    but the write of the 200 answer throws.  The handler falls into its
    [catch] branch: when the 500 write goes through, the answer that goes
    out is 500 with the error message; when the headers are already out
    and every write throws, the handler throws and sends nothing.  In
    neither run is the request answered 200 with the token. *)
Lemma getStreamToken_token_but_write_throws :
  let token_answer :=
    (200, JsonBody (VObj (Returns "[object Object]") [("token", VStr "tok_abc")])) in
  let r1 := getStreamToken write_fails_once (signed_in GET "/api/chat/token")
              initial in
  let r2 := getStreamToken headers_already_sent (signed_in GET "/api/chat/token")
              initial in
  createToken write_fails_once "user_123" (history initial) = Returns "tok_abc" /\
  fst r1 = Returned tt /\
  sent (res (snd r1)) =
  [(500, JsonBody (VObj (Returns "[object Object]")
                        [("message", VStr "Error generating stream token")]))] /\
  sent (res (snd r1)) <> [token_answer] /\
  createToken headers_already_sent "user_123" (history initial) = Returns "tok_abc" /\
  fst r2 = Threw (mkError "Error"
                    "Cannot set headers after they are sent to the client") /\
  sent (res (snd r2)) = [] /\
  sent (res (snd r2)) <> [token_answer].
Proof.
  cbn. repeat split; discriminate.
Qed.

(** C3, amended.  When the caller identity is there and the provider's
    [createToken] returns the token [t], the handler calls
    [res.status(200).json({ token: t })] before any other write.  When
    Express writes that answer, the handler returns with status 200 and
    the one body [{ token: t }] sent.  When the write throws, the handler
    goes on to its [catch] branch and writes the 500 answer instead. *)
Theorem getStreamToken_success ext req w a userId s t :
  auth req = Returns a ->
  get_prop a "userId" = Returns userId ->
  toString userId = Returns s ->
  createToken ext s (history w) = Returns t ->
  let h1 := history w ++ [EvCreateToken s] in
  let body := JsonBody (VObj (Returns "[object Object]") [("token", VStr t)]) in
  let message :=
    JsonBody (VObj (Returns "[object Object]")
                   [("message", VStr "Error generating stream token")]) in
  (res_write ext 200 body h1 = Returns tt ->
   getStreamToken ext req w =
   (Returned tt,
    mkWorld (h1 ++ [EvSend 200 body]) (console w)
            (mkResponse 200 (sent (res w) ++ [(200, body)])) (proc w))) /\
  (forall e,
     res_write ext 200 body h1 = Throws e ->
     history (snd (getStreamToken ext req w)) =
     h1 ++ [EvSend 200 body; EvSend 500 message] /\
     (sent (res (snd (getStreamToken ext req w))) = sent (res w) \/
      sent (res (snd (getStreamToken ext req w))) =
      sent (res w) ++ [(500, message)])).
Proof.
  intros Ha Hu Hs Ht h1 body message.
  assert (Hg : genrateStreamToken ext userId w =
               (Returned (VStr t), record (EvCreateToken s) w)).
  { rewrite genrateStreamToken_run, Hs. cbn zeta. rewrite Ht. reflexivity. }
  rewrite (getStreamToken_with_token ext req w a userId _ _ Ha Hu Hg).
  change (JsonBody (token_body (VStr t))) with body.
  change (history (record (EvCreateToken s) w)) with h1.
  split.
  - intros ->. reflexivity.
  - intros e ->. rewrite respond_run.
    change (history (unanswered 200 (token_body (VStr t))
                       (record (EvCreateToken s) w)))
      with (h1 ++ [EvSend 200 body]).
    change (JsonBody error_body) with message.
    destruct (res_write ext 500 message (h1 ++ [EvSend 200 body])) as [[]|e'];
      cbn [snd answered unanswered history res sent record];
      rewrite <- app_assoc; (split; [reflexivity|]); [right | left]; reflexivity.
Qed.

Lemma getStreamToken_success_witness :
  getStreamToken happy (signed_in GET "/api/chat/token") initial =
  (Returned tt,
   mkWorld [EvCreateToken "user_123";
            EvSend 200 (JsonBody (VObj (Returns "[object Object]")
                                       [("token", VStr "tok_abc")]))]
           []
           (mkResponse 200
              [(200, JsonBody (VObj (Returns "[object Object]")
                                    [("token", VStr "tok_abc")]))])
           (mkProcess false None)).
Proof.
  apply (proj1 (getStreamToken_success happy (signed_in GET "/api/chat/token")
                  initial (js_object [("userId", user_123)]) user_123
                  "user_123" "tok_abc" eq_refl eq_refl eq_refl eq_refl)).
  reflexivity.
Defined.

(** C2.  When the identity cannot be turned into a string, or the
    provider's [createToken] throws, [genrateStreamToken] returns [null]:
    nothing is raised to the caller. *)
Theorem genrateStreamToken_null_on_failure ext userId w :
  (exists e, toString userId = Throws e) \/
  (exists s e, toString userId = Returns s /\
               createToken ext s (history w) = Throws e) ->
  fst (genrateStreamToken ext userId w) = Returned VNull.
Proof.
  intros [[e He]|(s & e & Hs & He)]; rewrite genrateStreamToken_run.
  - rewrite He. reflexivity.
  - rewrite Hs. cbn zeta. rewrite He. reflexivity.
Qed.

Lemma genrateStreamToken_null_on_failure_witness :
  fst (genrateStreamToken provider_down user_123 initial) = Returned VNull /\
  fst (genrateStreamToken happy VUndefined initial) = Returned VNull.
Proof.
  split.
  - apply genrateStreamToken_null_on_failure.
    right. exists "user_123", network_error. split; reflexivity.
  - apply genrateStreamToken_null_on_failure.
    left. eexists. reflexivity.
Defined.

(** C4.  When [req.auth().userId] is read without an error and the
    provider's [createToken] throws, the endpoint answers with
    [res.status(200).json({ token: null })]: status 200, body
    [{ token: null }].  The handler ends with status 500 only when reading
    the identity threw or writing the 200 answer threw. *)
Theorem getStreamToken_provider_failure ext req w :
  (forall a userId s e,
     auth req = Returns a ->
     get_prop a "userId" = Returns userId ->
     toString userId = Returns s ->
     createToken ext s (history w) = Throws e ->
     let h1 := history w ++ [EvCreateToken s] in
     let body := JsonBody (VObj (Returns "[object Object]") [("token", VNull)]) in
     (exists rest,
        history (snd (getStreamToken ext req w)) = h1 ++ EvSend 200 body :: rest) /\
     (res_write ext 200 body h1 = Returns tt ->
      getStreamToken ext req w =
      (Returned tt,
       mkWorld (h1 ++ [EvSend 200 body])
               (console w ++
                [(LevelError, [LStr "Error generating Stream token:"; LErr e])])
               (mkResponse 200 (sent (res w) ++ [(200, body)]))
               (proc w)))) /\
  (statusCode (res (snd (getStreamToken ext req w))) = 500 ->
   (exists e, auth req = Throws e) \/
   (exists a e, auth req = Returns a /\ get_prop a "userId" = Throws e) \/
   (exists a userId token w1 e,
      auth req = Returns a /\
      get_prop a "userId" = Returns userId /\
      genrateStreamToken ext userId w = (Returned token, w1) /\
      res_write ext 200
        (JsonBody (VObj (Returns "[object Object]") [("token", token)]))
        (history w1) = Throws e)).
Proof.
  split.
  - intros a userId s e Ha Hu Hs Ht h1 body.
    pose (w1 := logged LevelError [LStr "Error generating Stream token:"; LErr e]
                       (record (EvCreateToken s) w)).
    assert (Hg : genrateStreamToken ext userId w = (Returned VNull, w1)).
    { rewrite genrateStreamToken_run, Hs. cbn zeta. rewrite Ht. reflexivity. }
    rewrite (getStreamToken_with_token ext req w a userId _ _ Ha Hu Hg).
    change (JsonBody (token_body VNull)) with body.
    change (history w1) with h1.
    destruct (res_write ext 200 body h1) as [[]|e'].
    + split; [exists []; reflexivity | reflexivity].
    + split; [|discriminate].
      rewrite respond_history. cbn [unanswered history]. rewrite <- app_assoc.
      eexists; reflexivity.
  - intros H500.
    destruct (auth req) as [a|e] eqn:Ha; [|left; eauto].
    destruct (get_prop a "userId") as [userId|e] eqn:Hu;
      [|right; left; eauto].
    right; right.
    destruct (genrateStreamToken_returns ext userId w) as [token Hf].
    destruct (genrateStreamToken ext userId w) as [o w1] eqn:Hg.
    cbn in Hf; subst o.
    rewrite (getStreamToken_with_token ext req w a userId _ _ Ha Hu Hg) in H500.
    destruct (res_write ext 200 (JsonBody (token_body token)) (history w1))
      as [[]|e'] eqn:Hw.
    + cbn in H500. discriminate.
    + exists a, userId, token, w1, e'. auto.
Qed.

Lemma getStreamToken_provider_failure_witness :
  getStreamToken provider_down (signed_in GET "/api/chat/token") initial =
  (Returned tt,
   mkWorld [EvCreateToken "user_123";
            EvSend 200 (JsonBody (VObj (Returns "[object Object]")
                                       [("token", VNull)]))]
           [(LevelError,
             [LStr "Error generating Stream token:"; LErr network_error])]
           (mkResponse 200
              [(200, JsonBody (VObj (Returns "[object Object]")
                                    [("token", VNull)]))])
           (mkProcess false None)) /\
  ((exists e, auth (without_clerk GET "/api/chat/token") = Throws e) \/
   (exists a e, auth (without_clerk GET "/api/chat/token") = Returns a /\
                get_prop a "userId" = Throws e) \/
   (exists a userId token w1 e,
      auth (without_clerk GET "/api/chat/token") = Returns a /\
      get_prop a "userId" = Returns userId /\
      genrateStreamToken happy userId initial = (Returned token, w1) /\
      res_write happy 200
        (JsonBody (VObj (Returns "[object Object]") [("token", token)]))
        (history w1) = Throws e)).
Proof.
  split.
  - apply (proj1 (getStreamToken_provider_failure provider_down
                    (signed_in GET "/api/chat/token") initial)
             (js_object [("userId", user_123)]) user_123 "user_123" network_error);
      reflexivity.
  - apply (proj2 (getStreamToken_provider_failure happy
                    (without_clerk GET "/api/chat/token") initial)).
    reflexivity.
Defined.

(** C1.  The provider is unreachable and [createToken] throws a network
    error: the endpoint answers 200 with [{ token: null }], not 500 with
    [{ message: "Error generating stream token" }]. *)
Theorem getStreamToken_provider_down :
  let r := getStreamToken provider_down (signed_in GET "/api/chat/token") initial in
  createToken provider_down "user_123" (history initial) = Throws network_error /\
  fst r = Returned tt /\
  sent (res (snd r)) = [(200, JsonBody (token_body VNull))] /\
  sent (res (snd r)) <> [(500, JsonBody error_body)] /\
  console (snd r) = [token_error_line network_error].
Proof.
  cbn. repeat split. discriminate.
Qed.

(** ** User lifecycle sync *)

(** C6.  [upsertStreamUser] and [deleteStreamUser] never throw to their
    caller, whatever the input and whatever the provider does: they
    return (the user data, or [undefined]); when the provider call throws,
    the error is printed with [console.error] and [undefined] comes back. *)
Theorem upsert_delete_never_throw ext userData userId w :
  (fst (upsertStreamUser ext userData w) = Returned userData \/
   fst (upsertStreamUser ext userData w) = Returned VUndefined) /\
  fst (deleteStreamUser ext userId w) = Returned VUndefined /\
  (forall e,
     upsertUser ext userData (history w) = Throws e ->
     upsertStreamUser ext userData w =
     (Returned VUndefined,
      logged LevelError [LStr "Error upserting Stream user:"; LErr e]
             (record (EvUpsertUser userData) w))) /\
  (forall e,
     deleteUser ext userId (history w) = Throws e ->
     deleteStreamUser ext userId w =
     (Returned VUndefined,
      logged LevelError [LStr "Error deleting Stream user:"; LErr e]
             (record (EvDeleteUser userId) w))).
Proof.
  rewrite upsertStreamUser_run, deleteStreamUser_run. cbn zeta.
  repeat split.
  - destruct (upsertUser ext userData (history w)); [|right; reflexivity].
    destruct (get_prop userData "name"); [left|right]; reflexivity.
  - destruct (deleteUser ext userId (history w)); reflexivity.
  - intros e He. rewrite He. reflexivity.
  - intros e He. rewrite He. reflexivity.
Qed.

Lemma upsert_delete_never_throw_witness :
  upsertStreamUser provider_down (js_object [("id", user_123); ("name", VStr "Ada")])
    initial =
  (Returned VUndefined,
   logged LevelError [LStr "Error upserting Stream user:"; LErr network_error]
     (record (EvUpsertUser (js_object [("id", user_123); ("name", VStr "Ada")]))
             initial)).
Proof.
  apply (upsert_delete_never_throw provider_down
           (js_object [("id", user_123); ("name", VStr "Ada")]) user_123 initial).
  reflexivity.
Defined.

(** C7.  Given the channels the provider returns for
    [{ discoverable: true }], enrollment makes one add-member call per
    channel, in the order returned, each for the new user alone and each
    asked once the calls before it have returned; it makes no other call.
    When a call throws the loop stops there: the calls already made stay,
    and nothing is undone. *)
Theorem enrollment_one_call_per_channel ext newUserId channels w :
  queryChannels ext discoverable_filter (history w) = Returns channels ->
  let r := addUserToPublicChannels ext newUserId w in
  let h1 := history w ++ [EvQueryChannels discoverable_filter] in
  (adds_return ext newUserId h1 channels (length channels) ->
   r = (Returned tt,
        mkWorld (h1 ++ add_calls newUserId channels)
                (console w) (res w) (proc w))) /\
  (exists k : nat,
     (k <= length channels)%nat /\
     snd r = mkWorld (h1 ++ add_calls newUserId (firstn k channels))
                     (console w) (res w) (proc w) /\
     ((fst r = Returned tt /\ k = length channels /\
       adds_return ext newUserId h1 channels k) \/
      (exists e channel,
         fst r = Threw e /\
         nth_error channels (pred k) = Some channel /\
         (0 < k)%nat /\
         adds_return ext newUserId h1 channels (pred k) /\
         addMembers ext channel [newUserId]
           (h1 ++ add_calls newUserId (firstn (pred k) channels)) = Throws e))).
Proof.
  intros Hq r h1.
  assert (Hloop := enrollment_loop_outcome ext newUserId channels w Hq).
  cbn zeta in Hloop. fold r h1 in Hloop.
  split; [|exact Hloop].
  intros Hall.
  destruct Hloop as (k & Hk & Hw & [(Hf & -> & _)|(e & ch & _ & Hn & Hpos & _ & Ht)]).
  - rewrite firstn_all in Hw. destruct r as [o w']; cbn in Hf, Hw.
    subst. reflexivity.
  - rewrite (Hall (pred k) ch ltac:(lia) Hn) in Ht. discriminate.
Qed.

Lemma enrollment_one_call_per_channel_witness :
  addUserToPublicChannels happy user_123 initial =
  (Returned tt,
   mkWorld [EvQueryChannels discoverable_filter;
            EvAddMembers (Chan "general") [user_123];
            EvAddMembers (Chan "random") [user_123]]
           [] fresh_response (mkProcess false None)).
Proof.
  apply (proj1 (enrollment_one_call_per_channel happy user_123
                  [Chan "general"; Chan "random"] initial eq_refl)).
  intros j channel Hj Hnth. reflexivity.
Defined.

(** C5, at a concrete input.  The provider is unreachable: the channel
    query inside [addUserToPublicChannels] throws, the function does not
    return, the error reaches its caller and nothing is printed.  The same
    happens when an add-member call runs out of quota. *)
Lemma enrollment_error_reaches_caller :
  fst (addUserToPublicChannels provider_down user_123 initial) = Threw network_error /\
  fst (addUserToPublicChannels provider_down user_123 initial) <> Returned tt /\
  console (snd (addUserToPublicChannels provider_down user_123 initial)) = [] /\
  fst (addUserToPublicChannels quota_after_one user_123 initial) = Threw quota_error /\
  console (snd (addUserToPublicChannels quota_after_one user_123 initial)) = [].
Proof.
  cbn. repeat split. discriminate.
Qed.

(** C5, amended.  [upsertStreamUser] and [deleteStreamUser] swallow every
    failure of their provider call after printing it: they return
    [undefined].  [addUserToPublicChannels] has no error handling: it
    prints nothing, a failure of the channel query or of an add-member
    call is thrown on to its caller, and it returns only when every call
    it made returned. *)
Theorem lifecycle_error_policy ext w :
  (forall userData e,
     upsertUser ext userData (history w) = Throws e ->
     fst (upsertStreamUser ext userData w) = Returned VUndefined /\
     console (snd (upsertStreamUser ext userData w)) =
     console w ++ [(LevelError, [LStr "Error upserting Stream user:"; LErr e])]) /\
  (forall userId e,
     deleteUser ext userId (history w) = Throws e ->
     fst (deleteStreamUser ext userId w) = Returned VUndefined /\
     console (snd (deleteStreamUser ext userId w)) =
     console w ++ [(LevelError, [LStr "Error deleting Stream user:"; LErr e])]) /\
  (forall newUserId e,
     queryChannels ext discoverable_filter (history w) = Throws e ->
     addUserToPublicChannels ext newUserId w =
     (Threw e, record (EvQueryChannels discoverable_filter) w)) /\
  (forall newUserId channels j channel e,
     queryChannels ext discoverable_filter (history w) = Returns channels ->
     let h1 := history w ++ [EvQueryChannels discoverable_filter] in
     nth_error channels j = Some channel ->
     adds_return ext newUserId h1 channels j ->
     addMembers ext channel [newUserId]
       (h1 ++ add_calls newUserId (firstn j channels)) = Throws e ->
     fst (addUserToPublicChannels ext newUserId w) = Threw e) /\
  (forall newUserId,
     console (snd (addUserToPublicChannels ext newUserId w)) = console w).
Proof.
  split; [|split; [|split; [|split]]].
  - intros userData e He. rewrite upsertStreamUser_run. cbn zeta.
    rewrite He. split; reflexivity.
  - intros userId e He. rewrite deleteStreamUser_run. cbn zeta.
    rewrite He. split; reflexivity.
  - intros newUserId e Hq. rewrite addUserToPublicChannels_run. cbn zeta.
    rewrite Hq. reflexivity.
  - intros newUserId channels j channel e Hq h1 Hn Hall Ht.
    destruct (enrollment_loop_outcome ext newUserId channels w Hq)
      as (k & Hk & _ & [(_ & -> & Hret)|(e' & ch & Hf & Hn' & Hpos & Hret & Ht')]).
    + assert (Hj : (j < length channels)%nat)
        by (apply nth_error_Some; rewrite Hn; discriminate).
      fold h1 in Hret. rewrite (Hret j channel Hj Hn) in Ht. discriminate.
    + fold h1 in Hret, Ht'.
      destruct (Nat.lt_trichotomy j (pred k)) as [Hlt|[Heq|Hgt]].
      * rewrite (Hret j channel Hlt Hn) in Ht. discriminate.
      * subst j. rewrite Hn in Hn'. injection Hn' as <-.
        rewrite Ht in Ht'. injection Ht' as <-. exact Hf.
      * rewrite (Hall (pred k) ch Hgt Hn') in Ht'. discriminate.
  - intros newUserId. rewrite addUserToPublicChannels_run. cbn zeta.
    destruct (queryChannels ext discoverable_filter (history w)) as [channels|e];
      [|reflexivity].
    destruct (enroll_loop ext newUserId channels
                (record (EvQueryChannels discoverable_filter) w))
      as (k & _ & Hw & _).
    cbn zeta in Hw. rewrite Hw. reflexivity.
Qed.

Lemma lifecycle_error_policy_witness :
  addUserToPublicChannels provider_down user_123 initial =
  (Threw network_error, record (EvQueryChannels discoverable_filter) initial) /\
  fst (addUserToPublicChannels quota_after_one user_123 initial) = Threw quota_error /\
  fst (upsertStreamUser provider_down VNull initial) = Returned VUndefined.
Proof.
  split; [|split].
  - apply (lifecycle_error_policy provider_down initial). reflexivity.
  - apply (proj1 (proj2 (proj2 (proj2 (lifecycle_error_policy quota_after_one initial))))
             user_123 [Chan "general"; Chan "random"; Chan "help"] 1%nat
             (Chan "random") quota_error); try reflexivity.
    intros j channel Hj Hnth. destruct j as [|j]; [reflexivity | lia].
  - apply (proj1 (lifecycle_error_policy provider_down initial) VNull network_error).
    reflexivity.
Defined.

(** C9.  A token request changes nothing the process owns: the process
    state is as before; the console gets at most the line for a caught
    token error; and a token that was issued goes nowhere but into the
    200 answer handed to Express, with nothing printed. *)
Theorem getStreamToken_frame ext req w :
  let w' := snd (getStreamToken ext req w) in
  proc w' = proc w /\
  (console w' = console w \/
   exists e, console w' = console w ++ [token_error_line e]) /\
  (forall a userId s t,
     auth req = Returns a ->
     get_prop a "userId" = Returns userId ->
     toString userId = Returns s ->
     createToken ext s (history w) = Returns t ->
     let w1 := record (EvCreateToken s) w in
     let body := token_body (VStr t) in
     w' = answered 200 body w1 \/
     w' = answered 500 error_body (unanswered 200 body w1) \/
     w' = unanswered 500 error_body (unanswered 200 body w1)).
Proof.
  cbn zeta.
  assert (Hframe :
            proc (snd (getStreamToken ext req w)) = proc w /\
            (console (snd (getStreamToken ext req w)) = console w \/
             exists e, console (snd (getStreamToken ext req w)) =
                       console w ++ [token_error_line e])).
  { destruct (auth req) as [a|e] eqn:Ha.
    2:{ rewrite getStreamToken_no_identity by (left; eauto).
        rewrite respond_proc, respond_console. auto. }
    destruct (get_prop a "userId") as [userId|e] eqn:Hu.
    2:{ rewrite getStreamToken_no_identity by (right; eauto).
        rewrite respond_proc, respond_console. auto. }
    destruct (genrateStreamToken_returns ext userId w) as [token Hf].
    destruct (genrateStreamToken ext userId w) as [o w1] eqn:Hg.
    cbn in Hf; subst o.
    destruct (genrateStreamToken_effects ext userId w token w1 Hg) as [Hp Hc].
    rewrite (getStreamToken_with_token ext req w a userId _ _ Ha Hu Hg).
    destruct (res_write ext 200 _ _).
    - cbn. auto.
    - rewrite respond_proc, respond_console. cbn. auto. }
  destruct Hframe as [Hp Hc].
  split; [exact Hp|]. split; [exact Hc|].
  - intros a userId s t Ha Hu Hs Ht.
    assert (Hg : genrateStreamToken ext userId w =
                 (Returned (VStr t), record (EvCreateToken s) w)).
    { rewrite genrateStreamToken_run, Hs. cbn zeta. rewrite Ht. reflexivity. }
    rewrite (getStreamToken_with_token ext req w a userId _ _ Ha Hu Hg).
    destruct (res_write ext 200 _ _); [left; reflexivity|].
    rewrite respond_run.
    destruct (res_write ext 500 _ _); [right; left | right; right]; reflexivity.
Qed.

Lemma getStreamToken_frame_witness :
  let w' := snd (getStreamToken write_fails_once (signed_in GET "/api/chat/token")
                   initial) in
  let body := token_body (VStr "tok_abc") in
  let w1 := record (EvCreateToken "user_123") initial in
  w' = answered 200 body w1 \/
  w' = answered 500 error_body (unanswered 200 body w1) \/
  w' = unanswered 500 error_body (unanswered 200 body w1).
Proof.
  apply (proj2 (proj2 (getStreamToken_frame write_fails_once
                         (signed_in GET "/api/chat/token") initial))
           (js_object [("userId", user_123)]) user_123 "user_123" "tok_abc");
    reflexivity.
Defined.

(** ** server.js *)

Section ServerFacts.

Variable ext : Externals.





Variable ENV : EnvConfig.

Lemma startServer_run w :
  startServer ext ENV w =
  if not_production ENV then
    let w1 := record EvConnectDB w in
    let failed e w' :=
      (Exited 1, logged LevelError [LStr "Error starting server:"; LErr e] w') in
    match db_connect ext (history w) with
    | Returned _ =>
        let w2 := record (EvListen (PORT ENV))
                    (set_proc (mkProcess true (listening (proc w))) w1) in
        match app_listen ext (PORT ENV) (history w1) with
        | Returns _ => (Returned tt, w2)
        | Throws e => failed e w2
        end
    | Threw e => failed e w1
    | Exited c => (Exited c, w1)
    end
  else (Returned tt, w).
Proof.
  unfold startServer. cbn. unfold M_catch.
  destruct (not_production ENV); [|reflexivity].
  unfold M_bind, connectDB, listen. cbn.
  destruct (db_connect ext (history w)) as [[]|e|c]; try reflexivity.
  rewrite call_run. cbn.
  destruct (app_listen ext (PORT ENV) (history w ++ [EvConnectDB])) as [[]|e];
    reflexivity.
Qed.

Lemma not_production_spec :
  not_production ENV = true <-> NODE_ENV ENV <> Some "production".
Proof.
  unfold not_production. destruct (NODE_ENV ENV) as [s|].
  - destruct (String.eqb_spec s "production") as [->|Hne]; cbn.
    + split; [discriminate | intros H; contradiction H; reflexivity].
    + split; [intros _ H; injection H as ->; contradiction Hne; reflexivity
             | reflexivity].
  - split; [discriminate | reflexivity].
Qed.

End ServerFacts.




(** C10.  With [NODE_ENV] equal to "production", [startServer] returns
    having done nothing: no database connection, no [app.listen], the
    process is not listening on any port it was not listening on before.
    The database connection and the listen are attempted only when
    [NODE_ENV] differs from "production", and then the connection is
    attempted first. *)
Theorem startServer_production_does_nothing ext ENV w :
  (NODE_ENV ENV = Some "production" ->
   startServer ext ENV w = (Returned tt, w)) /\
  (snd (startServer ext ENV w) <> w -> NODE_ENV ENV <> Some "production") /\
  (NODE_ENV ENV <> Some "production" ->
   exists rest,
     history (snd (startServer ext ENV w)) = history w ++ EvConnectDB :: rest).
Proof.
  rewrite startServer_run.
  pose proof (not_production_spec ENV) as Hspec.
  destruct (not_production ENV).
  - assert (Hne : NODE_ENV ENV <> Some "production") by (apply Hspec; reflexivity).
    split; [intros Hprod; contradiction|]. split; [intros _; exact Hne|].
    intros _. cbn zeta.
    destruct (db_connect ext (history w)) as [[]|e|c].
    + destruct (app_listen ext (PORT ENV) _) as [[]|e]; cbn;
        eexists; rewrite <- app_assoc; reflexivity.
    + cbn. eexists; reflexivity.
    + cbn. eexists; reflexivity.
  - split; [reflexivity|]. split.
    + intros H. contradiction H. reflexivity.
    + intros Hne. apply Hspec in Hne. discriminate.
Qed.

Lemma startServer_production_does_nothing_witness :
  startServer happy production initial = (Returned tt, initial) /\
  (exists rest,
     history (snd (startServer happy development initial)) =
     history initial ++ EvConnectDB :: rest).
Proof.
  split.
  - apply (startServer_production_does_nothing happy production initial).
    reflexivity.
  - apply (startServer_production_does_nothing happy development initial).
    discriminate.
Defined.

(** ** More on stream.js *)

(** [genrateStreamToken] asks the provider at most once, for the identity
    as [toString] printed it, and not at all when [toString] throws; it
    leaves the response and the process state alone. *)
Theorem genrateStreamToken_provider_calls ext userId w :
  let w' := snd (genrateStreamToken ext userId w) in
  (forall e, toString userId = Throws e -> history w' = history w) /\
  (forall s, toString userId = Returns s ->
             history w' = history w ++ [EvCreateToken s]) /\
  res w' = res w /\
  proc w' = proc w.
Proof.
  cbn zeta. rewrite genrateStreamToken_run.
  destruct (toString userId) as [s|e]; cbn zeta.
  - destruct (createToken ext s (history w)); cbn;
      (split; [discriminate|]); (split; [|split; reflexivity]);
      intros s' Hs; injection Hs as <-; reflexivity.
  - cbn. split; [reflexivity|]. split; [discriminate|]. split; reflexivity.
Qed.

Lemma genrateStreamToken_provider_calls_witness :
  history (snd (genrateStreamToken happy VNull initial)) = history initial /\
  history (snd (genrateStreamToken happy user_123 initial)) =
  history initial ++ [EvCreateToken "user_123"].
Proof.
  split.
  - apply (proj1 (genrateStreamToken_provider_calls happy VNull initial)
             (TypeError "Cannot read properties of null (reading 'toString')")).
    reflexivity.
  - apply (proj1 (proj2 (genrateStreamToken_provider_calls happy user_123 initial))
             "user_123").
    reflexivity.
Defined.

(** What [genrateStreamToken] returns is the provider's token or [null],
    and it is the token [t] exactly when the identity could be printed
    and the provider returned [t] for it. *)
Theorem genrateStreamToken_token_iff ext userId w :
  (fst (genrateStreamToken ext userId w) = Returned VNull \/
   exists t, fst (genrateStreamToken ext userId w) = Returned (VStr t)) /\
  (forall t,
     fst (genrateStreamToken ext userId w) = Returned (VStr t) <->
     exists s, toString userId = Returns s /\
               createToken ext s (history w) = Returns t).
Proof.
  rewrite genrateStreamToken_run.
  destruct (toString userId) as [s|e]; cbn zeta.
  - destruct (createToken ext s (history w)) as [t|e] eqn:Ht; cbn.
    + split; [right; exists t; reflexivity|].
      intros t'. split.
      * intros H. injection H as <-. exists s. split; [reflexivity | exact Ht].
      * intros (s' & Hs & Ht'). injection Hs as <-.
        rewrite Ht in Ht'. injection Ht' as <-. reflexivity.
    + split; [left; reflexivity|].
      intros t'. split; [discriminate|].
      intros (s' & Hs & Ht'). injection Hs as <-.
      rewrite Ht in Ht'. discriminate.
  - cbn. split; [left; reflexivity|].
    intros t'. split; [discriminate|].
    intros (s' & Hs & _). discriminate.
Qed.

Lemma genrateStreamToken_token_iff_witness :
  fst (genrateStreamToken happy user_123 initial) = Returned (VStr "tok_abc").
Proof.
  apply (proj2 (genrateStreamToken_token_iff happy user_123 initial) "tok_abc").
  exists "user_123". split; reflexivity.
Defined.

(** When the provider call returned and the user data is [null] or
    [undefined], reading [userData.name] throws inside the [try]:
    [upsertStreamUser] prints the upsert-error line with a TypeError and
    returns [undefined] although the upsert went through.  For any other
    user data it prints the success line with the name and returns the
    user data. *)
Theorem upsertStreamUser_after_provider_success ext userData w :
  upsertUser ext userData (history w) = Returns tt ->
  let w1 := record (EvUpsertUser userData) w in
  (userData = VNull \/ userData = VUndefined ->
   exists e,
     err_name e = "TypeError" /\
     upsertStreamUser ext userData w =
     (Returned VUndefined,
      logged LevelError [LStr "Error upserting Stream user:"; LErr e] w1)) /\
  (userData <> VNull -> userData <> VUndefined ->
   exists name,
     get_prop userData "name" = Returns name /\
     upsertStreamUser ext userData w =
     (Returned userData,
      logged LevelLog [LStr "Stream user upserted:"; LVal name] w1)).
Proof.
  intros Hup w1. rewrite upsertStreamUser_run. cbn zeta. rewrite Hup.
  split.
  - intros [->| ->]; cbn; eexists; (split; [|reflexivity]); reflexivity.
  - intros Hn Hu.
    destruct userData; try contradiction; cbn; eexists; split; reflexivity.
Qed.

Lemma upsertStreamUser_after_provider_success_witness :
  (exists e,
     err_name e = "TypeError" /\
     upsertStreamUser happy VNull initial =
     (Returned VUndefined,
      logged LevelError [LStr "Error upserting Stream user:"; LErr e]
             (record (EvUpsertUser VNull) initial))) /\
  (exists name,
     get_prop (js_object [("id", user_123)]) "name" = Returns name /\
     upsertStreamUser happy (js_object [("id", user_123)]) initial =
     (Returned (js_object [("id", user_123)]),
      logged LevelLog [LStr "Stream user upserted:"; LVal name]
             (record (EvUpsertUser (js_object [("id", user_123)])) initial))).
Proof.
  split.
  - apply (proj1 (upsertStreamUser_after_provider_success happy VNull initial
                    eq_refl)).
    left. reflexivity.
  - apply (proj2 (upsertStreamUser_after_provider_success happy
                    (js_object [("id", user_123)]) initial eq_refl));
      discriminate.
Defined.

(** [upsertStreamUser] and [deleteStreamUser] each make exactly one
    provider call, with the argument as it was passed (no check, no
    conversion), print exactly one console line, and leave the response
    and the process state alone. *)
Theorem upsert_delete_one_call_one_line ext userData userId w :
  let wu := snd (upsertStreamUser ext userData w) in
  let wd := snd (deleteStreamUser ext userId w) in
  (history wu = history w ++ [EvUpsertUser userData] /\
   length (console wu) = S (length (console w)) /\
   res wu = res w /\ proc wu = proc w) /\
  (history wd = history w ++ [EvDeleteUser userId] /\
   length (console wd) = S (length (console w)) /\
   res wd = res w /\ proc wd = proc w).
Proof.
  cbn zeta. rewrite upsertStreamUser_run, deleteStreamUser_run. cbn zeta.
  split.
  - destruct (upsertUser ext userData (history w));
      [destruct (get_prop userData "name")|]; cbn;
      rewrite length_app, Nat.add_comm; repeat split.
  - destruct (deleteUser ext userId (history w)); cbn;
      rewrite length_app, Nat.add_comm; repeat split.
Qed.

(** ** More on the token endpoint *)

Section EndpointCases.

Variable ext : Externals.

(** What [genrateStreamToken] can hand to the handler. *)
Lemma genrateStreamToken_result userId w token w1 :
  genrateStreamToken ext userId w = (Returned token, w1) ->
  (token = VNull \/ exists t, token = VStr t) /\
  (history w1 = history w \/ exists s, history w1 = history w ++ [EvCreateToken s]) /\
  res w1 = res w.
Proof.
  rewrite genrateStreamToken_run.
  destruct (toString userId) as [s|e]; cbn zeta;
    [destruct (createToken ext s (history w)) as [t|e]|];
    intros Hg; injection Hg as <- <-; cbn; repeat split; eauto.
Qed.

(** Every way the handler can run. *)
Lemma getStreamToken_cases req w :
  let r := getStreamToken ext req w in
  (((exists e, auth req = Throws e) \/
    (exists a e, auth req = Returns a /\ get_prop a "userId" = Throws e)) /\
   (r = (Returned tt, answered 500 error_body w) \/
    exists e,
      r = (Threw e, unanswered 500 error_body w) /\
      res_write ext 500 (JsonBody error_body) (history w) = Throws e)) \/
  (exists a userId token w1,
     auth req = Returns a /\
     get_prop a "userId" = Returns userId /\
     genrateStreamToken ext userId w = (Returned token, w1) /\
     let w2 := unanswered 200 (token_body token) w1 in
     (r = (Returned tt, answered 200 (token_body token) w1) \/
      r = (Returned tt, answered 500 error_body w2) \/
      exists e,
        r = (Threw e, unanswered 500 error_body w2) /\
        res_write ext 500 (JsonBody error_body) (history w2) = Throws e)).
Proof.
  cbn zeta.
  assert (Hfail : forall w0,
            (res_status 500 ;; res_json ext error_body) w0 =
            (Returned tt, answered 500 error_body w0) \/
            exists e,
              (res_status 500 ;; res_json ext error_body) w0 =
              (Threw e, unanswered 500 error_body w0) /\
              res_write ext 500 (JsonBody error_body) (history w0) = Throws e).
  { intros w0. rewrite respond_run.
    destruct (res_write ext 500 (JsonBody error_body) (history w0)) as [[]|e];
      [left; reflexivity | right; exists e; split; reflexivity]. }
  destruct (auth req) as [a|e] eqn:Ha.
  2:{ left. split; [left; eauto|].
      rewrite getStreamToken_no_identity by (left; eauto). apply Hfail. }
  destruct (get_prop a "userId") as [userId|e] eqn:Hu.
  2:{ left. split; [right; eauto|].
      rewrite getStreamToken_no_identity by (right; eauto). apply Hfail. }
  right.
  destruct (genrateStreamToken_returns ext userId w) as [token Hf].
  destruct (genrateStreamToken ext userId w) as [o w1] eqn:Hg.
  cbn in Hf; subst o.
  exists a, userId, token, w1.
  split; [reflexivity|]. split; [exact Hu|]. split; [exact Hg|]. cbn zeta.
  rewrite (getStreamToken_with_token ext req w a userId _ _ Ha Hu Hg).
  destruct (res_write ext 200 _ _); [left; reflexivity|].
  right. apply Hfail.
Qed.

End EndpointCases.

(** The handler does not refuse an identity that cannot be printed
    ([userId] is [null] or [undefined], as for a signed-out caller): the
    provider is never asked, the TypeError is printed, and the handler
    answers 200 with [{ token: null }]. *)
Theorem getStreamToken_signed_out ext req w a userId e :
  auth req = Returns a ->
  get_prop a "userId" = Returns userId ->
  toString userId = Throws e ->
  let body := JsonBody (VObj (Returns "[object Object]") [("token", VNull)]) in
  res_write ext 200 body (history w) = Returns tt ->
  getStreamToken ext req w =
  (Returned tt,
   mkWorld (history w ++ [EvSend 200 body])
           (console w ++
            [(LevelError, [LStr "Error generating Stream token:"; LErr e])])
           (mkResponse 200 (sent (res w) ++ [(200, body)]))
           (proc w)).
Proof.
  intros Ha Hu Hs body Hw.
  assert (Hg : genrateStreamToken ext userId w =
               (Returned VNull,
                logged LevelError [LStr "Error generating Stream token:"; LErr e] w)).
  { rewrite genrateStreamToken_run, Hs. reflexivity. }
  rewrite (getStreamToken_with_token ext req w a userId _ _ Ha Hu Hg).
  change (JsonBody (token_body VNull)) with body.
  cbn [logged history]. rewrite Hw. reflexivity.
Qed.

Lemma getStreamToken_signed_out_witness :
  sent (res (snd (getStreamToken happy (signed_out GET "/api/chat/token") initial))) =
  [(200, JsonBody (VObj (Returns "[object Object]") [("token", VNull)]))].
Proof.
  rewrite (getStreamToken_signed_out happy (signed_out GET "/api/chat/token")
             initial (js_object [("userId", VNull)]) VNull
             (TypeError "Cannot read properties of null (reading 'toString')"));
    reflexivity.
Defined.

(** When [req.auth()] throws or its result has no readable [userId], the
    handler asks the provider nothing and prints nothing: it writes the
    500 answer [{ message: "Error generating stream token" }], and if
    that write throws too the error leaves the handler with no answer
    sent. *)
Theorem getStreamToken_identity_error ext req w :
  (exists e, auth req = Throws e) \/
  (exists a e, auth req = Returns a /\ get_prop a "userId" = Throws e) ->
  let message :=
    JsonBody (VObj (Returns "[object Object]")
                   [("message", VStr "Error generating stream token")]) in
  (res_write ext 500 message (history w) = Returns tt ->
   getStreamToken ext req w =
   (Returned tt,
    mkWorld (history w ++ [EvSend 500 message]) (console w)
            (mkResponse 500 (sent (res w) ++ [(500, message)])) (proc w))) /\
  (forall e,
     res_write ext 500 message (history w) = Throws e ->
     getStreamToken ext req w =
     (Threw e,
      mkWorld (history w ++ [EvSend 500 message]) (console w)
              (mkResponse 500 (sent (res w))) (proc w))).
Proof.
  intros Hid message.
  rewrite (getStreamToken_no_identity ext req w Hid), respond_run.
  change (JsonBody error_body) with message.
  split.
  - intros ->. reflexivity.
  - intros e ->. reflexivity.
Qed.

Lemma getStreamToken_identity_error_witness :
  getStreamToken provider_down (without_clerk GET "/api/chat/token") initial =
  (Returned tt,
   mkWorld [EvSend 500
              (JsonBody (VObj (Returns "[object Object]")
                              [("message", VStr "Error generating stream token")]))]
           []
           (mkResponse 500
              [(500,
                JsonBody (VObj (Returns "[object Object]")
                               [("message", VStr "Error generating stream token")]))])
           (mkProcess false None)).
Proof.
  apply (getStreamToken_identity_error provider_down
           (without_clerk GET "/api/chat/token") initial).
  - left. eexists. reflexivity.
  - reflexivity.
Defined.

(** The handler never ends the process and answers at most once.  When it
    returns, exactly one answer went out: 200 with [{ token }], the token
    a string or [null], or 500 with
    [{ message: "Error generating stream token" }], whatever the error
    was.  When it throws, no answer went out, the status is left at 500,
    and the error is the one the write of the 500 answer threw. *)
Theorem getStreamToken_at_most_one_answer ext req w :
  let r := getStreamToken ext req w in
  let message :=
    VObj (Returns "[object Object]")
         [("message", VStr "Error generating stream token")] in
  (forall c, fst r <> Exited c) /\
  (fst r = Returned tt ->
   exists code obj,
     sent (res (snd r)) = sent (res w) ++ [(code, JsonBody obj)] /\
     statusCode (res (snd r)) = code /\
     ((code = 200 /\
       exists token,
         obj = VObj (Returns "[object Object]") [("token", token)] /\
         (token = VNull \/ exists t, token = VStr t)) \/
      (code = 500 /\ obj = message))) /\
  (forall e,
     fst r = Threw e ->
     sent (res (snd r)) = sent (res w) /\
     statusCode (res (snd r)) = 500 /\
     exists h, res_write ext 500 (JsonBody message) h = Throws e).
Proof.
  cbn zeta.
  destruct (getStreamToken_cases ext req w)
    as [[_ [Hr|(e & Hr & He)]]
       |(a & userId & token & w1 & _ & _ & Hg & [Hr|[Hr|(e & Hr & He)]])];
    try destruct (genrateStreamToken_result ext userId w token w1 Hg)
      as (Htok & _ & Hres);
    rewrite Hr; cbn [fst snd answered unanswered res sent statusCode];
    try rewrite Hres.
  - split; [discriminate|]. split; [|discriminate].
    intros _. exists 500, error_body.
    split; [reflexivity|]. split; [reflexivity|]. right. split; reflexivity.
  - split; [discriminate|]. split; [discriminate|].
    intros e' H. injection H as <-.
    split; [reflexivity|]. split; [reflexivity|]. exists (history w). exact He.
  - split; [discriminate|]. split; [|discriminate].
    intros _. exists 200, (token_body token).
    split; [reflexivity|]. split; [reflexivity|]. left. split; [reflexivity|].
    exists token. split; [reflexivity | exact Htok].
  - split; [discriminate|]. split; [|discriminate].
    intros _. exists 500, error_body.
    split; [reflexivity|]. split; [reflexivity|]. right. split; reflexivity.
  - split; [discriminate|]. split; [discriminate|].
    intros e' H. injection H as <-.
    split; [reflexivity|]. split; [reflexivity|]. eexists. exact He.
Qed.

Lemma getStreamToken_at_most_one_answer_witness :
  exists code obj,
    sent (res (snd (getStreamToken write_fails_once
                      (signed_in GET "/api/chat/token") initial))) =
    sent (res initial) ++ [(code, JsonBody obj)] /\
    statusCode (res (snd (getStreamToken write_fails_once
                            (signed_in GET "/api/chat/token") initial))) = code /\
    ((code = 200 /\
      exists token,
        obj = VObj (Returns "[object Object]") [("token", token)] /\
        (token = VNull \/ exists t, token = VStr t)) \/
     (code = 500 /\
      obj = VObj (Returns "[object Object]")
                 [("message", VStr "Error generating stream token")])).
Proof.
  apply (proj1 (proj2 (getStreamToken_at_most_one_answer write_fails_once
                         (signed_in GET "/api/chat/token") initial))).
  reflexivity.
Defined.

(** The calls of one request, exactly.  With no readable identity: the
    write of the 500 answer and nothing else, the provider is not asked.
    With an identity that cannot be printed: no [createToken], the write
    of 200 [{ token: null }].  Otherwise: one [createToken] for the
    printed identity, then the write of 200 with the token, or with
    [null] when [createToken] threw.  After the 200 write comes the write
    of the 500 answer if the 200 write threw, and nothing if it did not;
    the provider is never asked after a write. *)
Theorem getStreamToken_call_order ext req w :
  let w' := snd (getStreamToken ext req w) in
  let message :=
    JsonBody (VObj (Returns "[object Object]")
                   [("message", VStr "Error generating stream token")]) in
  let answer token :=
    JsonBody (VObj (Returns "[object Object]") [("token", token)]) in
  let after_write h token :=
    match res_write ext 200 (answer token) h with
    | Returns _ => []
    | Throws _ => [EvSend 500 message]
    end in
  ((exists e, auth req = Throws e) \/
   (exists a e, auth req = Returns a /\ get_prop a "userId" = Throws e) ->
   history w' = history w ++ [EvSend 500 message]) /\
  (forall a userId,
     auth req = Returns a ->
     get_prop a "userId" = Returns userId ->
     (forall e,
        toString userId = Throws e ->
        history w' =
        history w ++ EvSend 200 (answer VNull) :: after_write (history w) VNull) /\
     (forall s,
        toString userId = Returns s ->
        let token := match createToken ext s (history w) with
                     | Returns t => VStr t
                     | Throws _ => VNull
                     end in
        history w' =
        history w ++ EvCreateToken s :: EvSend 200 (answer token)
          :: after_write (history w ++ [EvCreateToken s]) token)).
Proof.
  cbn zeta. split.
  - intros Hid. rewrite (getStreamToken_no_identity ext req w Hid).
    rewrite respond_history. reflexivity.
  - intros a userId Ha Hu.
    assert (Hrun : forall token w1,
              genrateStreamToken ext userId w = (Returned token, w1) ->
              history (snd (getStreamToken ext req w)) =
              history w1 ++
              EvSend 200 (JsonBody (VObj (Returns "[object Object]")
                                         [("token", token)]))
              :: match res_write ext 200
                         (JsonBody (VObj (Returns "[object Object]")
                                         [("token", token)])) (history w1) with
                 | Returns _ => []
                 | Throws _ =>
                     [EvSend 500
                        (JsonBody (VObj (Returns "[object Object]")
                           [("message", VStr "Error generating stream token")]))]
                 end).
    { intros token w1 Hg.
      rewrite (getStreamToken_with_token ext req w a userId _ _ Ha Hu Hg).
      change (JsonBody (token_body token))
        with (JsonBody (VObj (Returns "[object Object]") [("token", token)])).
      destruct (res_write ext 200 _ (history w1)); [reflexivity|].
      rewrite respond_history. cbn [unanswered history].
      rewrite <- app_assoc. reflexivity. }
    split.
    + intros e He.
      rewrite (Hrun VNull
                 (logged LevelError
                    [LStr "Error generating Stream token:"; LErr e] w)).
      * reflexivity.
      * rewrite genrateStreamToken_run, He. reflexivity.
    + intros s Hs.
      destruct (createToken ext s (history w)) as [t|e] eqn:Ht.
      * rewrite (Hrun (VStr t) (record (EvCreateToken s) w)).
        -- cbn [record history]. rewrite <- app_assoc. reflexivity.
        -- rewrite genrateStreamToken_run, Hs. cbn zeta. rewrite Ht. reflexivity.
      * rewrite (Hrun VNull
                   (logged LevelError
                      [LStr "Error generating Stream token:"; LErr e]
                      (record (EvCreateToken s) w))).
        -- cbn [logged record history]. rewrite <- app_assoc. reflexivity.
        -- rewrite genrateStreamToken_run, Hs. cbn zeta. rewrite Ht. reflexivity.
Qed.

Lemma getStreamToken_call_order_witness :
  history (snd (getStreamToken happy (without_clerk GET "/api/chat/token") initial)) =
  [EvSend 500
     (JsonBody (VObj (Returns "[object Object]")
                     [("message", VStr "Error generating stream token")]))] /\
  history (snd (getStreamToken happy (signed_in GET "/api/chat/token") initial)) =
  [EvCreateToken "user_123";
   EvSend 200 (JsonBody (VObj (Returns "[object Object]")
                              [("token", VStr "tok_abc")]))].
Proof.
  split.
  - apply (proj1 (getStreamToken_call_order happy
                    (without_clerk GET "/api/chat/token") initial)).
    left. eexists. reflexivity.
  - apply (proj2 (proj2 (getStreamToken_call_order happy
                           (signed_in GET "/api/chat/token") initial)
                    (js_object [("userId", user_123)]) user_123
                    eq_refl eq_refl)
             "user_123" eq_refl).
Defined.

(** ** More on server.js *)

(** [startServer] never throws to the module that calls it without
    awaiting: it returns or the process exits.  An exit happens only
    outside production, with code 1 unless config/db.js itself ended the
    process. *)
Theorem startServer_never_throws ext ENV w :
  let r := startServer ext ENV w in
  (forall e, fst r <> Threw e) /\
  (forall c,
     fst r = Exited c ->
     NODE_ENV ENV <> Some "production" /\
     (c = 1 \/ db_connect ext (history w) = Exited c)).
Proof.
  cbn zeta. rewrite startServer_run.
  pose proof (not_production_spec ENV) as Hspec.
  destruct (not_production ENV); cbn zeta.
  - assert (Hne : NODE_ENV ENV <> Some "production") by (apply Hspec; reflexivity).
    destruct (db_connect ext (history w)) as [[]|e|c] eqn:Hdb;
      [destruct (app_listen ext (PORT ENV) _) as [[]|e]| |]; cbn;
      (split; [discriminate|]); intros c' H; try discriminate;
      injection H as <-; auto.
  - cbn. split; [discriminate|]. intros c H. discriminate.
Qed.

Lemma startServer_never_throws_witness :
  NODE_ENV development <> Some "production" /\
  (1 = 1 \/ db_connect db_down (history initial) = Exited 1).
Proof.
  apply (proj2 (startServer_never_throws db_down development initial) 1).
  reflexivity.
Defined.

(** Outside production, when the database connection throws, the error is
    printed and the process exits with code 1: [app.listen] is never
    called and the process state is as it was. *)
Theorem startServer_database_failure ext ENV w e :
  NODE_ENV ENV <> Some "production" ->
  db_connect ext (history w) = Threw e ->
  startServer ext ENV w =
  (Exited 1,
   mkWorld (history w ++ [EvConnectDB])
           (console w ++ [(LevelError, [LStr "Error starting server:"; LErr e])])
           (res w) (proc w)).
Proof.
  intros Hne Hdb. rewrite startServer_run.
  apply not_production_spec in Hne. rewrite Hne. cbn zeta. rewrite Hdb.
  reflexivity.
Qed.

Lemma startServer_database_failure_witness :
  startServer db_down development initial =
  (Exited 1,
   mkWorld [EvConnectDB]
           [(LevelError, [LStr "Error starting server:"; LErr network_error])]
           fresh_response (mkProcess false None)).
Proof.
  apply (startServer_database_failure db_down development initial network_error).
  - discriminate.
  - reflexivity.
Defined.

(** The server never listens without a database: a listen call made by
    [startServer] comes after the database connection has returned, is
    for [ENV.PORT], and happens outside production only. *)
Theorem startServer_listens_only_with_database ext ENV w port :
  In (EvListen port) (history (snd (startServer ext ENV w))) ->
  ~ In (EvListen port) (history w) ->
  NODE_ENV ENV <> Some "production" /\
  db_connect ext (history w) = Returned tt /\
  port = PORT ENV.
Proof.
  rewrite startServer_run.
  pose proof (not_production_spec ENV) as Hspec.
  destruct (not_production ENV); cbn zeta.
  - assert (Hne : NODE_ENV ENV <> Some "production") by (apply Hspec; reflexivity).
    destruct (db_connect ext (history w)) as [[]|e|c].
    + intros Hin Hnot. split; [exact Hne|]. split; [reflexivity|].
      assert (Hin' : In (EvListen port)
                        ((history w ++ [EvConnectDB]) ++ [EvListen (PORT ENV)])).
      { destruct (app_listen ext (PORT ENV) _) as [[]|e']; exact Hin. }
      rewrite !in_app_iff in Hin'. cbn in Hin'.
      destruct Hin' as [[Hin'|[Hin'|[]]]|[Hin'|[]]];
        [contradiction | discriminate | injection Hin' as <-; reflexivity].
    + cbn. intros Hin Hnot. rewrite in_app_iff in Hin. cbn in Hin.
      destruct Hin as [Hin|[Hin|[]]]; [contradiction | discriminate].
    + cbn. intros Hin Hnot. rewrite in_app_iff in Hin. cbn in Hin.
      destruct Hin as [Hin|[Hin|[]]]; [contradiction | discriminate].
  - cbn. intros Hin Hnot. contradiction.
Qed.

Lemma startServer_listens_only_with_database_witness :
  NODE_ENV development <> Some "production" /\
  db_connect happy (history initial) = Returned tt /\
  Some "3000" = PORT development.
Proof.
  apply (startServer_listens_only_with_database happy development initial
           (Some "3000")).
  - cbn. right. left. reflexivity.
  - cbn. intros [].
Defined.


